(** * The settings editor's top-level component (frontend/src/App.tsx)

    A shallow embedding of the [App] component of the settings editor: the
    five pieces of component state, the event handlers that update them,
    and the calls the handlers make to the data service, to [alert] and to
    the keyboard event.  Handlers are computations in a small monad that
    threads the component state and logs the outward calls in order.  The
    two asynchronous handlers are cut at their [await]: the part that runs
    when the handler is called, and the part that runs when the promise of
    the data service settles. *)

From stdpp Require Import base gmap strings list.
From Stdlib Require Import ZArith.

Local Open Scope Z_scope.
Local Set Warnings "-register-all".

(** ** Data model *)

(** The JSON values the configuration objects are made of.  The component
    never inspects them. *)
Inductive value : Type :=
  | VNull
  | VBool (b : bool)
  | VNum (n : Z)
  | VStr (s : string)
  | VArr (items : list value)
  | VObj (fields : list (string * value)).

(** [models/project], [models/source], [models/prep], [models/script]: the
    component stores and forwards them whole. *)
Definition Project : Type := value.
Definition Source : Type := value.
Definition Prep : Type := value.
Definition Script : Type := value.

Module Data.
(** Modelled from the spec: the class of [settings.data] is declared in
    models/, outside the component's file.  The component
    uses its [scripts] field; the settings document is described as
    [data: { scripts, ...other opaque fields }], so the fields besides
    [scripts] are kept as a finite map from field name to value. *)
Record t : Type := mk {
  scripts : list Script;
  other : gmap string value
}.

(** [data.scripts = s] *)
Definition set_scripts (s : list Script) (d : t) : t := mk s (other d).
End Data.

Module Settings.
(** [models/settings]: the document exchanged with the data service. *)
Record t : Type := mk {
  project : Project;
  sources : list Source;
  prep : Prep;
  data : Data.t
}.

(** The field assignments [settings.project = p], [settings.sources = s],
    [settings.prep = p] and [settings.data.scripts = s]. *)
Definition set_project (p : Project) (d : t) : t :=
  mk p (sources d) (prep d) (data d).
Definition set_sources (s : list Source) (d : t) : t :=
  mk (project d) s (prep d) (data d).
Definition set_prep (p : Prep) (d : t) : t :=
  mk (project d) (sources d) p (data d).
Definition set_data_scripts (s : list Script) (d : t) : t :=
  mk (project d) (sources d) (prep d) (Data.set_scripts s (data d)).
End Settings.

(** The five [useState] cells of [App]. *)
Record AppState : Type := mkAppState {
  project : Project;
  sources : list Source;
  prep : Prep;
  scripts : list Script;
  isFileSaved : bool
}.

(** The fields of a keyboard event the component can tell apart. *)
Record KeyEvent : Type := mkKeyEvent {
  ctrlKey : bool;
  shiftKey : bool;
  altKey : bool;
  metaKey : bool;
  which : Z
}.

(** [KEY_S] of the keycode-js package. *)
Definition KEY_S : Z := 83.

(** How a promise of the data service settles. *)
Inductive Settled (A : Type) : Type :=
  | Fulfilled (a : A)
  | Rejected.
Arguments Fulfilled {A} a.
Arguments Rejected {A}.

(** The calls a handler makes outside the component state. *)
Inductive Effect : Type :=
  | GetSettings
  | SaveSettings (settings : Settings.t)
  | Alert (message : string)
  | PreventDefault.

(** ** The handler monad: component state and a log of outward calls *)

Definition M (A : Type) : Type := AppState → A * AppState * list Effect.

Definition ret {A} (a : A) : M A := λ st, (a, st, []).

Definition bind {A B} (m : M A) (k : A → M B) : M B :=
  λ st,
    let '(a, st1, out1) := m st in
    let '(b, st2, out2) := k a st1 in
    (b, st2, out1 ++ out2).

Notation "m1 ;;; m2" := (bind m1 (λ _, m2))
  (at level 100, m2 at level 200, right associativity).

Definition call (eff : Effect) : M unit := λ st, (tt, st, [eff]).

Definition state_after {A} (m : M A) (st : AppState) : AppState := (m st).1.2.
Definition effects_of {A} (m : M A) (st : AppState) : list Effect := (m st).2.

(** The state setters returned by [useState]. *)
Definition setProject (p : Project) : M unit :=
  λ st, (tt, mkAppState p (sources st) (prep st) (scripts st) (isFileSaved st), []).
Definition setSources (s : list Source) : M unit :=
  λ st, (tt, mkAppState (project st) s (prep st) (scripts st) (isFileSaved st), []).
Definition setPrep (p : Prep) : M unit :=
  λ st, (tt, mkAppState (project st) (sources st) p (scripts st) (isFileSaved st), []).
Definition setScripts (s : list Script) : M unit :=
  λ st, (tt, mkAppState (project st) (sources st) (prep st) s (isFileSaved st), []).
Definition setIsFileSaved (b : bool) : M unit :=
  λ st, (tt, mkAppState (project st) (sources st) (prep st) (scripts st) b, []).

(** The documents handed to [dataService.saveSettings], in call order. *)
Fixpoint written (out : list Effect) : list Settings.t :=
  match out with
  | [] => []
  | SaveSettings d :: rest => d :: written rest
  | _ :: rest => written rest
  end.

(** The messages shown with [alert], in call order. *)
Fixpoint alerts (out : list Effect) : list string :=
  match out with
  | [] => []
  | Alert msg :: rest => msg :: alerts rest
  | _ :: rest => alerts rest
  end.

Definition is_write (eff : Effect) : bool :=
  match eff with SaveSettings _ => true | _ => false end.

(** ** Sample values *)

Definition sample_project : Project := VObj [("name"%string, VStr "P")].
Definition sample_source : Source :=
  VObj [("type"%string, VStr "CSV"); ("path"%string, VStr "a.csv")].
Definition sample_script : Script := VObj [("endpoint"%string, VStr "MANUSCRIPT")].

(** A freshly constructed document with nothing in it. *)
Definition empty_Settings : Settings.t :=
  Settings.mk (VObj []) [] (VObj []) (Data.mk [] ∅).

(** The document of the scenario in the specification. *)
Definition scenario_document : Settings.t :=
  Settings.mk sample_project [] (VObj []) (Data.mk [] ∅).

(** Two documents that differ only in a field of [data] besides [scripts]. *)
Definition document_a : Settings.t :=
  Settings.mk sample_project [sample_source; VStr "second"] (VObj [])
    (Data.mk [sample_script] {[ "bibliography"%string := VStr "a.bib" ]}).
Definition document_b : Settings.t :=
  Settings.mk sample_project [sample_source; VStr "second"] (VObj [])
    (Data.mk [sample_script] {[ "bibliography"%string := VStr "b.bib" ]}).

Definition sample_state : AppState :=
  mkAppState sample_project [sample_source] (VObj []) [sample_script] false.

Definition ctrl_s : KeyEvent := mkKeyEvent true false false false 83.
Definition ctrl_shift_s : KeyEvent := mkKeyEvent true true false false 83.
Definition plain_s : KeyEvent := mkKeyEvent false false false false 83.
Definition ctrl_a : KeyEvent := mkKeyEvent true false false false 65.

(** ** The handlers of [App] *)

(** What a child editor reports through its callback prop. *)
Inductive Change : Type :=
  | ProjectChanged (p : Project)
  | SourcesChanged (s : list Source)
  | PrepChanged (p : Prep)
  | ScriptsChanged (s : list Script).

(** What can happen to the mounted component: the mount effect, an edit in
    a child editor, a click on the save button, a key press inside the
    container, and the settling of a promise of the data service. *)
Inductive Event : Type :=
  | Mounted
  | GetSettingsSettled (r : Settled Settings.t)
  | Edited (c : Change)
  | SaveClicked
  | KeyPressed (e : KeyEvent)
  | SaveSettingsSettled (r : Settled unit).

(** ** The page: elements, attributes and what [App] renders *)

(** An element of the document: its tag and its attributes. *)
Record Element : Type := mkElement {
  tagName : string;
  attributes : gmap string string
}.

Definition hasAttribute (name : string) (el : Element) : bool :=
  bool_decide (is_Some (attributes el !! name)).

Definition setAttribute (name val : string) (el : Element) : Element :=
  mkElement (tagName el) (<[name := val]> (attributes el)).

(** The selector of [initTooltips]: the attribute [data-bs-toggle] is
    present with the value [tooltip]. *)
Definition is_tooltip_toggle (el : Element) : bool :=
  bool_decide (attributes el !! "data-bs-toggle"%string = Some "tooltip"%string).

(** [document.querySelectorAll]: the positions, in document order, of the
    elements the selector matches. *)
Fixpoint querySelectorAll_from (selector : Element → bool) (i : nat)
    (doc : list Element) : list nat :=
  match doc with
  | [] => []
  | el :: rest =>
      if selector el then i :: querySelectorAll_from selector (S i) rest
      else querySelectorAll_from selector (S i) rest
  end.

Definition querySelectorAll (selector : Element → bool) (doc : list Element)
    : list nat :=
  querySelectorAll_from selector 0%nat doc.

(** The body of the [forEach] of [initTooltips] on the node at position [i]:
    the document so far and the positions of the nodes a [Tooltip] was
    constructed for.  What bootstrap's constructor does to the node it is
    given is left open ([new_Tooltip]). *)
Definition initTooltips_node (new_Tooltip : Element → Element)
    (acc : list Element * list nat) (i : nat) : list Element * list nat :=
  match acc.1 !! i with
  | Some tooltipNode =>
      if negb (hasAttribute "data-tooltip-initialized" tooltipNode) then
        (<[i := setAttribute "data-tooltip-initialized" "true"
                  (new_Tooltip tooltipNode)]> acc.1,
         acc.2 ++ [i])
      else acc
  | None => acc
  end.

Definition initTooltips (new_Tooltip : Element → Element) (doc : list Element)
    : list Element * list nat :=
  foldl (initTooltips_node new_Tooltip) (doc, [])
    (querySelectorAll is_tooltip_toggle doc).

(** A node [initTooltips] constructs a [Tooltip] for. *)
Definition needs_tooltip (el : Element) : bool :=
  is_tooltip_toggle el && negb (hasAttribute "data-tooltip-initialized" el).

(** What one pass of [initTooltips] makes of a node. *)
Definition after_pass (new_Tooltip : Element → Element) (el : Element) : Element :=
  if needs_tooltip el then
    setAttribute "data-tooltip-initialized" "true" (new_Tooltip el)
  else el.

(** A page with a fresh tooltip toggle, an element that is no toggle, and a
    toggle that already carries the marker, with the value [false]. *)
Definition sample_page : list Element :=
  [ mkElement "button"
      {[ "data-bs-toggle"%string := "tooltip"%string;
         "title"%string := "Save"%string ]};
    mkElement "div" {[ "class"%string := "container"%string ]};
    mkElement "span"
      {[ "data-bs-toggle"%string := "tooltip"%string;
         "data-tooltip-initialized"%string := "false"%string ]} ].

(** A constructor that moves the title of the node out of the way. *)
Definition sample_Tooltip (el : Element) : Element :=
  match attributes el !! "title"%string with
  | Some t =>
      mkElement (tagName el)
        (<[ "data-bs-original-title"%string := t ]>
           (delete "title"%string (attributes el)))
  | None => el
  end.

(** Whether JavaScript takes a value for true in [v && ...]. *)
Definition truthy (v : value) : bool :=
  match v with
  | VNull => false
  | VBool b => b
  | VNum n => negb (n =? 0)
  | VStr s => match s with EmptyString => false | String _ _ => true end
  | VArr _ | VObj _ => true
  end.

(** What is rendered inside [project && (...)]: the props of the four
    editors, the handler of the save button, and whether the
    "Settings Saved" banner is there. *)
Record Editors : Type := mkEditors {
  ProjectEditor_project : Project;
  ProjectEditor_projectChanged : Project → M unit;
  SourcesEditor_sources : list Source;
  SourcesEditor_sourcesChanged : list Source → M unit;
  PrepEditor_prep : Prep;
  PrepEditor_prepChanged : Prep → M unit;
  ScriptsEditor_scripts : list Script;
  ScriptsEditor_scriptsChanged : list Script → M unit;
  button_onClick : Settled unit → M unit;
  settingsSaved : bool
}.

(** The container [div]: its key handler, and its content, which is the
    value of [project] itself when that is not truthy. *)
Record Page : Type := mkPage {
  container_onKeyDown : KeyEvent → Settled unit → M unit;
  content : value + Editors
}.

(** The values handed to the four editors and the banner, when they are
    rendered. *)
Definition shown (pg : Page)
    : option (Project * list Source * Prep * list Script * bool) :=
  match content pg with
  | inr ed =>
      Some (ProjectEditor_project ed, SourcesEditor_sources ed,
            PrepEditor_prep ed, ScriptsEditor_scripts ed, settingsSaved ed)
  | inl _ => None
  end.

(** The four stored documents of a state. *)
Definition documents (st : AppState)
    : Project * list Source * Prep * list Script :=
  (project st, sources st, prep st, scripts st).

Definition same_document (c1 c2 : Change) : bool :=
  match c1, c2 with
  | ProjectChanged _, ProjectChanged _
  | SourcesChanged _, SourcesChanged _
  | PrepChanged _, PrepChanged _
  | ScriptsChanged _, ScriptsChanged _ => true
  | _, _ => false
  end.

Definition is_get (eff : Effect) : bool :=
  match eff with GetSettings => true | _ => false end.

Section App.
(** The constructors live in models/, outside the component's file: what
    [new Settings()], [new Project()] and [new Prep()] build is left
    open. *)
Variable new_Settings : Settings.t.
Variable new_Project : Project.
Variable new_Prep : Prep.

Definition initial_state : AppState :=
  mkAppState new_Project [] new_Prep [] false.

(** [loadData], up to its [await]. *)
Definition loadData_called : M unit :=
  setIsFileSaved false ;;;
  call GetSettings.

(** [loadData], from its [await] on.  A rejected promise ends the handler. *)
Definition loadData_resumed (r : Settled Settings.t) : M unit :=
  match r with
  | Fulfilled settings =>
      setProject (Settings.project settings) ;;;
      setSources (Settings.sources settings) ;;;
      setPrep (Settings.prep settings) ;;;
      setScripts (Data.scripts (Settings.data settings))
  | Rejected => ret tt
  end.

(** [loadData] with nothing else happening while it awaits. *)
Definition loadData (r : Settled Settings.t) : M unit :=
  loadData_called ;;;
  loadData_resumed r.

Definition onProjectChanged (p : Project) : M unit :=
  setIsFileSaved false ;;;
  setProject p.

Definition onSourcesChanged (s : list Source) : M unit :=
  setIsFileSaved false ;;;
  setSources s.

Definition onPrepChanged (p : Prep) : M unit :=
  setIsFileSaved false ;;;
  setPrep p.

Definition onScriptsChanged (s : list Script) : M unit :=
  setIsFileSaved false ;;;
  setScripts s.

(** The callback each editor is given in the JSX. *)
Definition onChildChanged (c : Change) : M unit :=
  match c with
  | ProjectChanged p => onProjectChanged p
  | SourcesChanged s => onSourcesChanged s
  | PrepChanged p => onPrepChanged p
  | ScriptsChanged s => onScriptsChanged s
  end.

(** The document [onSave] builds from the state of the render it closes
    over. *)
Definition assemble (st : AppState) : Settings.t :=
  let settings := new_Settings in
  let settings := Settings.set_project (project st) settings in
  let settings := Settings.set_sources (sources st) settings in
  let settings := Settings.set_prep (prep st) settings in
  Settings.set_data_scripts (scripts st) settings.

(** [onSave], up to its [await]. *)
Definition onSave_called : M unit :=
  λ st,
    let settings := assemble st in
    (setIsFileSaved false ;;;
     call (SaveSettings settings)) st.

(** [onSave], from its [await] on: the [try] and its [catch]. *)
Definition onSave_resumed (r : Settled unit) : M unit :=
  match r with
  | Fulfilled _ => setIsFileSaved true
  | Rejected => call (Alert "Error saving file.")
  end.

(** [onSave] with nothing else happening while it awaits. *)
Definition onSave (r : Settled unit) : M unit :=
  onSave_called ;;;
  onSave_resumed r.

(** [onKeyDown], up to the [await] of the [onSave] it starts. *)
Definition onKeyDown_called (e : KeyEvent) : M unit :=
  if ctrlKey e && (which e =? KEY_S) then
    call PreventDefault ;;;
    onSave_called
  else ret tt.

(** [onKeyDown], [r] being how the write of the [onSave] it starts
    settles. *)
Definition onKeyDown (e : KeyEvent) (r : Settled unit) : M unit :=
  if ctrlKey e && (which e =? KEY_S) then
    call PreventDefault ;;;
    onSave r
  else ret tt.

(** One event of the event loop. *)
Definition step (ev : Event) : M unit :=
  match ev with
  | Mounted => loadData_called
  | GetSettingsSettled r => loadData_resumed r
  | Edited c => onChildChanged c
  | SaveClicked => onSave_called
  | KeyPressed e => onKeyDown_called e
  | SaveSettingsSettled r => onSave_resumed r
  end.

Fixpoint run (evs : list Event) : M unit :=
  match evs with
  | [] => ret tt
  | ev :: rest => step ev ;;; run rest
  end.

(** The events whose handler calls [setIsFileSaved(false)]. *)
Definition resets_flag (ev : Event) : bool :=
  match ev with
  | Mounted | Edited _ | SaveClicked => true
  | KeyPressed e => ctrlKey e && (which e =? KEY_S)
  | GetSettingsSettled _ | SaveSettingsSettled _ => false
  end.

Definition is_edit (ev : Event) : bool :=
  match ev with Edited _ => true | _ => false end.

(** *** The properties of the specification, as it words them *)

(** Saving after loading [D] keeps every field of [D]'s [data] besides
    [scripts]. *)
Definition retains_other_data_fields (D : Settings.t) : Prop :=
  ∀ st r doc,
    doc ∈ written (effects_of (loadData (Fulfilled D) ;;; onSave r) st) →
    ∀ k v, Data.other (Settings.data D) !! k = Some v →
           Data.other (Settings.data doc) !! k = Some v.

(** Loading [D] and saving at once hands [D] back. *)
Definition round_trip (D : Settings.t) : Prop :=
  ∀ st r,
    written (effects_of (loadData (Fulfilled D) ;;; onSave r) st) = [D].

(** After a successful save the flag stays set as long as no child editor
    reports a change. *)
Definition saved_until_next_edit : Prop :=
  ∀ st evs,
    Forall (λ ev, is_edit ev = false) evs →
    isFileSaved (state_after (onSave (Fulfilled tt) ;;; run evs) st) = true.

(** Two saves in a row make no outward call besides the writes. *)
Definition writes_only : Prop :=
  ∀ st r1 r2,
    Forall (λ eff, is_write eff = true) (effects_of (onSave r1 ;;; onSave r2) st).

(** The flag is false when a load completes. *)
Definition false_after_load : Prop :=
  ∀ st evs r,
    isFileSaved
      (state_after (loadData_called ;;; run evs ;;; loadData_resumed r) st)
    = false.

(** The flag is false after an [onSave] whose write was rejected. *)
Definition false_after_rejected_write : Prop :=
  ∀ st evs,
    isFileSaved
      (state_after (onSave_called ;;; run evs ;;; onSave_resumed Rejected) st)
    = false.

(** The failure notification of one [onSave]. *)
Definition notification (r : Settled unit) : list Effect :=
  match r with
  | Fulfilled _ => []
  | Rejected => [Alert "Error saving file."]
  end.

Definition fulfilled {A} (r : Settled A) : bool :=
  match r with Fulfilled _ => true | Rejected => false end.

(** The save chord as the specification describes it. *)
Definition save_chord (e : KeyEvent) : Prop :=
  ctrlKey e = true ∧ which e = KEY_S.

(** *** What [App] renders, and kinds of events *)

(** The JSX [App] returns, as far as it depends on the state. *)
Definition render (st : AppState) : Page :=
  mkPage onKeyDown
    (if truthy (project st) then
       inr (mkEditors
              (project st) onProjectChanged
              (sources st) onSourcesChanged
              (prep st) onPrepChanged
              (scripts st) onScriptsChanged
              onSave
              (isFileSaved st))
     else inl (project st)).

(** The documents written from the page rendered for [st]: by a click on
    the save button, when the button is there, and by pressing the key
    [e].  Both handlers belong to that render and read its state. *)
Definition saves_on_page (st : AppState) (e : KeyEvent) (r : Settled unit)
    : option (list Settings.t) * list Settings.t :=
  (match content (render st) with
   | inr ed => Some (written (effects_of (button_onClick ed r) st))
   | inl _ => None
   end,
   written (effects_of (container_onKeyDown (render st) e r) st)).

(** The events that start an [onSave]. *)
Definition starts_save (ev : Event) : bool :=
  match ev with
  | SaveClicked => true
  | KeyPressed e => ctrlKey e && (which e =? KEY_S)
  | _ => false
  end.

Definition is_mount (ev : Event) : bool :=
  match ev with Mounted => true | _ => false end.

Definition is_rejected_write (ev : Event) : bool :=
  match ev with SaveSettingsSettled Rejected => true | _ => false end.

(** The events whose handler stores a document. *)
Definition stores_document (ev : Event) : bool :=
  match ev with
  | Edited _ | GetSettingsSettled (Fulfilled _) => true
  | _ => false
  end.

(** The events no handler reacts to: a rejected load and a key press that
    is not the chord. *)
Definition ignored (ev : Event) : bool :=
  match ev with
  | GetSettingsSettled Rejected => true
  | KeyPressed e => negb (ctrlKey e && (which e =? KEY_S))
  | _ => false
  end.

(** ** Sequencing *)

(** Closes a goal [eff ∈ out → _] when [out] is a literal log that does
    not hold [eff]. *)
Ltac not_in_log :=
  let H := fresh "Hin" in
  intros H;
  repeat (apply elem_of_cons in H as [H|H]; [discriminate H|]);
  by apply elem_of_nil in H.

Lemma state_after_bind {A B} (m : M A) (k : M B) st :
  state_after (m ;;; k) st = state_after k (state_after m st).
Proof.
  unfold state_after, bind.
  destruct (m st) as [[a st1] out1]; simpl.
  by destruct (k st1) as [[b st2] out2].
Qed.

Lemma effects_of_bind {A B} (m : M A) (k : M B) st :
  effects_of (m ;;; k) st = effects_of m st ++ effects_of k (state_after m st).
Proof.
  unfold effects_of, state_after, bind.
  destruct (m st) as [[a st1] out1]; simpl.
  by destruct (k st1) as [[b st2] out2].
Qed.

Lemma written_app out1 out2 : written (out1 ++ out2) = written out1 ++ written out2.
Proof.
  induction out1 as [|eff out1 IH]; [done|].
  destruct eff; simpl; by rewrite ?IH.
Qed.

Lemma run_app evs1 evs2 st :
  state_after (run (evs1 ++ evs2)) st
  = state_after (run evs2) (state_after (run evs1) st).
Proof.
  revert st; induction evs1 as [|ev evs1 IH]; intros st; [done|].
  simpl. by rewrite !state_after_bind, IH.
Qed.

(** ** The saved flag, event by event *)

Lemma chord_cases (e : KeyEvent) :
  ctrlKey e && (which e =? KEY_S) = true ↔ save_chord e.
Proof.
  unfold save_chord. rewrite andb_true_iff, Z.eqb_eq. done.
Qed.

Lemma step_resets ev st :
  resets_flag ev = true → isFileSaved (state_after (step ev) st) = false.
Proof.
  destruct ev as [|r|c| |e|r]; simpl; try done.
  - by destruct c.
  - unfold onKeyDown_called. by intros ->.
Qed.

Lemma step_keeps ev st :
  resets_flag ev = false →
  isFileSaved st = true → isFileSaved (state_after (step ev) st) = true.
Proof.
  destruct ev as [|r|c| |e|r]; simpl; try done.
  - by destruct r.
  - unfold onKeyDown_called. by intros ->.
  - by destruct r.
Qed.

Lemma step_sets_only_on_fulfilled_write ev st :
  isFileSaved st = false →
  isFileSaved (state_after (step ev) st) = true →
  ev = SaveSettingsSettled (Fulfilled tt).
Proof.
  intros Hst.
  destruct ev as [|r|c| |e|r]; simpl; try done.
  - destruct r; unfold state_after; simpl; congruence.
  - by destruct c.
  - unfold onKeyDown_called.
    destruct (ctrlKey e && (which e =? KEY_S)); [done|].
    unfold state_after; simpl; congruence.
  - destruct r as [[]|]; [done|].
    unfold state_after; simpl; congruence.
Qed.

Lemma run_keeps evs st :
  Forall (λ ev, resets_flag ev = false) evs →
  isFileSaved st = true → isFileSaved (state_after (run evs) st) = true.
Proof.
  intros Hevs; revert st.
  induction Hevs as [|ev evs Hev _ IH]; intros st Hst; [done|].
  simpl. rewrite state_after_bind. by apply IH, step_keeps.
Qed.

Lemma run_sets_only_on_fulfilled_write evs st :
  isFileSaved st = false →
  isFileSaved (state_after (run evs) st) = true →
  SaveSettingsSettled (Fulfilled tt) ∈ evs.
Proof.
  revert st; induction evs as [|ev evs IH]; intros st Hst; simpl.
  - unfold state_after; simpl. congruence.
  - rewrite state_after_bind. intros Hend.
    destruct (isFileSaved (state_after (step ev) st)) eqn:Hmid.
    + rewrite (step_sets_only_on_fulfilled_write ev st Hst Hmid). left.
    + right. by apply (IH _ Hmid).
Qed.

(** ** What [onSave] hands to the data service *)

Lemma onSave_effects st r :
  effects_of (onSave r) st = SaveSettings (assemble st) :: notification r.
Proof. by destruct r. Qed.

Lemma onSave_state st r :
  state_after (onSave r) st
  = mkAppState (project st) (sources st) (prep st) (scripts st) (fulfilled r).
Proof. by destruct r. Qed.

Lemma written_notification r : written (notification r) = [].
Proof. by destruct r. Qed.

Lemma onSave_written st r : written (effects_of (onSave r) st) = [assemble st].
Proof. rewrite onSave_effects. simpl. by rewrite written_notification. Qed.

Lemma loadData_state D st :
  state_after (loadData (Fulfilled D)) st
  = mkAppState (Settings.project D) (Settings.sources D) (Settings.prep D)
      (Data.scripts (Settings.data D)) false.
Proof. done. Qed.

Lemma load_then_save_written D st r :
  written (effects_of (loadData (Fulfilled D) ;;; onSave r) st)
  = [Settings.mk (Settings.project D) (Settings.sources D) (Settings.prep D)
       (Data.mk (Data.scripts (Settings.data D))
                (Data.other (Settings.data new_Settings)))].
Proof.
  rewrite effects_of_bind, written_app, onSave_written, loadData_state. done.
Qed.

(** ** Events while a promise is pending *)

(** The flag is still false when a rejected write settles, whatever
    happened while it was pending, as long as no other write was
    fulfilled in the meantime. *)
Lemma onSave_rejected_after_events st evs :
  SaveSettingsSettled (Fulfilled tt) ∉ evs →
  isFileSaved
    (state_after (onSave_called ;;; run evs ;;; onSave_resumed Rejected) st)
  = false.
Proof.
  intros Hevs. rewrite !state_after_bind.
  set (st1 := state_after onSave_called st).
  destruct (isFileSaved (state_after (run evs) st1)) eqn:Hmid; [|done].
  destruct Hevs. by apply (run_sets_only_on_fulfilled_write evs st1).
Qed.

(** The same for a load: the flag is false when the document arrives
    unless a write was fulfilled while the load was pending. *)
Lemma loadData_after_events st evs r :
  SaveSettingsSettled (Fulfilled tt) ∉ evs →
  isFileSaved
    (state_after (loadData_called ;;; run evs ;;; loadData_resumed r) st)
  = false.
Proof.
  intros Hevs. rewrite !state_after_bind.
  set (st1 := state_after loadData_called st).
  destruct (isFileSaved (state_after (run evs) st1)) eqn:Hmid.
  - destruct Hevs. by apply (run_sets_only_on_fulfilled_write evs st1).
  - destruct r; [|done]. unfold state_after in *; simpl. done.
Qed.

(** ** The claims *)

(** C1 (as amended): whatever the state, and in particular right after a
    document [D] was loaded, the [data] object [onSave] hands to the data
    service carries the stored scripts and, besides [scripts], exactly the
    fields of a freshly constructed [Settings]; no field of the loaded
    [data] besides [scripts] reaches the persisted document. *)
Theorem onSave_data_fields_are_the_fresh_ones st r D :
  (Data.other ∘ Settings.data) <$> written (effects_of (onSave r) st)
    = [Data.other (Settings.data new_Settings)]
  ∧ (Data.scripts ∘ Settings.data) <$> written (effects_of (onSave r) st)
    = [scripts st]
  ∧ (Data.other ∘ Settings.data)
      <$> written (effects_of (loadData (Fulfilled D) ;;; onSave r) st)
    = [Data.other (Settings.data new_Settings)]
  ∧ (∀ k, (λ doc, Data.other (Settings.data doc) !! k)
            <$> written (effects_of (loadData (Fulfilled D) ;;; onSave r) st)
          = [Data.other (Settings.data new_Settings) !! k]).
Proof.
  rewrite onSave_written, load_then_save_written. done.
Qed.

(** C2 (as amended): [loadData] receiving [D], followed at once by
    [onSave], hands the data service one document: [D]'s project, sources,
    prep and [data.scripts], with the remaining [data] fields of a freshly
    constructed [Settings].  It is [D] exactly when [D]'s [data] fields
    besides [scripts] are those of a fresh [Settings]. *)
Theorem load_then_save_document D :
  (∀ st r,
     written (effects_of (loadData (Fulfilled D) ;;; onSave r) st)
     = [Settings.mk (Settings.project D) (Settings.sources D) (Settings.prep D)
          (Data.mk (Data.scripts (Settings.data D))
                   (Data.other (Settings.data new_Settings)))])
  ∧ (round_trip D
     ↔ Data.other (Settings.data D) = Data.other (Settings.data new_Settings)).
Proof.
  split; [apply load_then_save_written|].
  unfold round_trip. split.
  - intros H. specialize (H (mkAppState VNull [] VNull [] false) Rejected).
    rewrite load_then_save_written in H.
    destruct D as [p s q [sc o]]; simpl in *. congruence.
  - intros H st r. rewrite load_then_save_written, <- H.
    by destruct D as [p s q [sc o]].
Qed.

(** C3 (as amended): the flag is false right after [loadData] starts; it is
    false when the load completes unless a write of [onSave] was fulfilled
    while the load was pending, and so in particular when nothing happened
    in between; it is false after every change reported by a child editor,
    whatever it was before; it is true when a write of [onSave] is
    fulfilled, whatever happened while the write was pending, and stays
    true over every later event that is neither an edit, nor the start of a
    load, nor a call of [onSave], each of which makes it false; and it
    turns from false to true only when a write of [onSave] is fulfilled. *)
Theorem saved_flag_lifecycle :
  (∀ st, isFileSaved (state_after loadData_called st) = false)
  ∧ (∀ st r, isFileSaved (state_after (loadData r) st) = false)
  ∧ (∀ st evs r,
       SaveSettingsSettled (Fulfilled tt) ∉ evs →
       isFileSaved
         (state_after (loadData_called ;;; run evs ;;; loadData_resumed r) st)
       = false)
  ∧ (∀ st c, isFileSaved (state_after (onChildChanged c) st) = false)
  ∧ (∀ st, isFileSaved (state_after (onSave (Fulfilled tt)) st) = true)
  ∧ (∀ st evs,
       Forall (λ ev, resets_flag ev = false) evs →
       isFileSaved (state_after (onSave (Fulfilled tt) ;;; run evs) st) = true)
  ∧ (∀ st pending evs,
       Forall (λ ev, resets_flag ev = false) evs →
       isFileSaved
         (state_after
            (onSave_called ;;; run pending ;;; onSave_resumed (Fulfilled tt) ;;;
             run evs) st)
       = true)
  ∧ (∀ st ev,
       resets_flag ev = true → isFileSaved (state_after (step ev) st) = false)
  ∧ (∀ st evs,
       isFileSaved st = false →
       isFileSaved (state_after (run evs) st) = true →
       SaveSettingsSettled (Fulfilled tt) ∈ evs).
Proof.
  repeat split.
  - intros st [D|]; done.
  - intros st evs r. apply loadData_after_events.
  - intros st []; done.
  - intros st evs Hevs. rewrite state_after_bind. by apply run_keeps.
  - intros st pending evs Hevs. rewrite !state_after_bind. by apply run_keeps.
  - intros st ev. apply step_resets.
  - intros st evs. apply run_sets_only_on_fulfilled_write.
Qed.

(** C4 (as amended): the catch branch of [onSave] leaves the flag as it
    is, so after a rejected write the flag is false unless another write
    was fulfilled while this one was pending, and in particular when
    nothing happened in between.  Whatever happens in between, the
    invocation writes once, when it is called, and on the rejection calls
    [alert] once with the text "Error saving file." and nothing else: the
    write is not attempted again. *)
Theorem onSave_rejected st :
  isFileSaved (state_after (onSave Rejected) st) = false
  ∧ effects_of (onSave Rejected) st
    = [SaveSettings (assemble st); Alert "Error saving file."]
  ∧ alerts (effects_of (onSave Rejected) st) = ["Error saving file."%string]
  ∧ written (effects_of (onSave Rejected) st) = [assemble st]
  ∧ (∀ evs,
       SaveSettingsSettled (Fulfilled tt) ∉ evs →
       isFileSaved
         (state_after (onSave_called ;;; run evs ;;; onSave_resumed Rejected) st)
       = false)
  ∧ effects_of onSave_called st = [SaveSettings (assemble st)]
  ∧ (∀ st', onSave_resumed Rejected st'
            = (tt, st', [Alert "Error saving file."])).
Proof.
  do 4 (split; [done|]).
  split; [|done].
  intros evs. apply onSave_rejected_after_events.
Qed.

(** C5: a key event with the control modifier and the key code of S makes
    [onKeyDown] call [preventDefault] and then [onSave], leaving the state
    [onSave] itself leaves; on every other key event [onKeyDown] changes
    nothing and calls nothing. *)
Theorem onKeyDown_is_onSave_on_chord e r st :
  (save_chord e →
     state_after (onKeyDown e r) st = state_after (onSave r) st
     ∧ effects_of (onKeyDown e r) st = PreventDefault :: effects_of (onSave r) st)
  ∧ (¬ save_chord e → onKeyDown e r st = (tt, st, [])).
Proof.
  unfold onKeyDown. split.
  - intros He. apply chord_cases in He. rewrite He.
    by rewrite state_after_bind, effects_of_bind.
  - intros He. rewrite <- chord_cases in He.
    by destruct (ctrlKey e && (which e =? KEY_S)).
Qed.

(** C6: [onPrepChanged] stores the new prep whole and leaves project,
    sources and scripts as they were; likewise each of the other three
    change handlers replaces its own sub-document only; all four clear the
    flag and call nothing. *)
Theorem change_handlers_replace_their_own_document st :
  (∀ newPrep,
     onPrepChanged newPrep st
     = (tt, mkAppState (project st) (sources st) newPrep (scripts st) false, []))
  ∧ (∀ newProject,
     onProjectChanged newProject st
     = (tt, mkAppState newProject (sources st) (prep st) (scripts st) false, []))
  ∧ (∀ newSources,
     onSourcesChanged newSources st
     = (tt, mkAppState (project st) newSources (prep st) (scripts st) false, []))
  ∧ (∀ newScripts,
     onScriptsChanged newScripts st
     = (tt, mkAppState (project st) (sources st) (prep st) newScripts false, [])).
Proof. done. Qed.

(** C7: after [loadData] received [D], an [onSave] with no edit in between
    hands over a document whose [sources] and [data.scripts] are the lists
    of [D], element by element in the same positions. *)
Theorem load_then_save_keeps_order D st r :
  Settings.sources <$> written (effects_of (loadData (Fulfilled D) ;;; onSave r) st)
    = [Settings.sources D]
  ∧ (Data.scripts ∘ Settings.data)
      <$> written (effects_of (loadData (Fulfilled D) ;;; onSave r) st)
    = [Data.scripts (Settings.data D)]
  ∧ (∀ i : nat,
       (λ doc, Settings.sources doc !! i)
         <$> written (effects_of (loadData (Fulfilled D) ;;; onSave r) st)
       = [Settings.sources D !! i])
  ∧ (∀ i : nat,
       (λ doc, Data.scripts (Settings.data doc) !! i)
         <$> written (effects_of (loadData (Fulfilled D) ;;; onSave r) st)
       = [Data.scripts (Settings.data D) !! i]).
Proof. rewrite load_then_save_written. done. Qed.

(** C8 (as amended): two calls of [onSave] in a row hand the data service
    the same document both times; each call makes one write and, when
    that write is rejected, one [alert], and nothing else; the stored
    documents are untouched and the flag tells whether the second write
    was fulfilled. *)
Theorem onSave_twice st r1 r2 :
  written (effects_of (onSave r1 ;;; onSave r2) st) = [assemble st; assemble st]
  ∧ effects_of (onSave r1 ;;; onSave r2) st
    = (SaveSettings (assemble st) :: notification r1)
      ++ (SaveSettings (assemble st) :: notification r2)
  ∧ state_after (onSave r1 ;;; onSave r2) st
    = mkAppState (project st) (sources st) (prep st) (scripts st) (fulfilled r2).
Proof.
  rewrite state_after_bind, effects_of_bind, written_app, !onSave_written,
    !onSave_effects, !onSave_state.
  done.
Qed.

(** C9: [onSave] leaves project, sources, prep and scripts as they were,
    whether its write is fulfilled or rejected; of the state only the flag
    can differ afterwards. *)
Theorem onSave_keeps_documents st r :
  project (state_after (onSave r) st) = project st
  ∧ sources (state_after (onSave r) st) = sources st
  ∧ prep (state_after (onSave r) st) = prep st
  ∧ scripts (state_after (onSave r) st) = scripts st
  ∧ state_after (onSave r) st
    = mkAppState (project st) (sources st) (prep st) (scripts st) (fulfilled r).
Proof. by destruct r. Qed.

(** C10: with the control modifier set and the key code of S, [onKeyDown]
    calls [preventDefault] and starts [onSave], whatever the shift, alt
    and meta modifiers are; and [preventDefault] is called for no other
    event. *)
Theorem onKeyDown_chord_ignores_other_modifiers :
  (∀ shift alt meta r st,
     effects_of (onKeyDown (mkKeyEvent true shift alt meta KEY_S) r) st
     = PreventDefault :: effects_of (onSave r) st)
  ∧ (∀ e r st,
       PreventDefault ∈ effects_of (onKeyDown e r) st → save_chord e)
  ∧ (∀ ev st,
       PreventDefault ∈ effects_of (step ev) st →
       ∃ e, ev = KeyPressed e ∧ save_chord e).
Proof.
  split; [|split].
  - intros shift alt meta r st. by destruct r.
  - intros e r st. unfold onKeyDown.
    destruct (ctrlKey e && (which e =? KEY_S)) eqn:He.
    + intros _. by apply chord_cases.
    + unfold effects_of; simpl. not_in_log.
  - intros ev st.
    destruct ev as [|r|c| |e|r]; simpl.
    + unfold effects_of; simpl. not_in_log.
    + destruct r; unfold effects_of; simpl; not_in_log.
    + destruct c; unfold effects_of; simpl; not_in_log.
    + unfold effects_of; simpl. not_in_log.
    + unfold onKeyDown_called.
      destruct (ctrlKey e && (which e =? KEY_S)) eqn:He.
      * intros _. exists e. split; [done|by apply chord_cases].
      * unfold effects_of; simpl. not_in_log.
    + destruct r; unfold effects_of; simpl; not_in_log.
Qed.

(** ** Events between the call of a handler and the settling of its promise *)

(** [onKeyDown] on the chord is its synchronous part followed by the rest
    of the [onSave] it started. *)
Lemma onKeyDown_cut e r st :
  save_chord e →
  onKeyDown e r st = (onKeyDown_called e ;;; onSave_resumed r) st.
Proof.
  intros He%chord_cases. unfold onKeyDown, onKeyDown_called. rewrite He.
  by destruct r.
Qed.

(** ** Runs of the event loop: what each kind of event contributes *)

Lemma alerts_app out1 out2 : alerts (out1 ++ out2) = alerts out1 ++ alerts out2.
Proof.
  induction out1 as [|eff out1 IH]; [done|].
  destruct eff; simpl; by rewrite ?IH.
Qed.

Lemma run_cons_state ev evs st :
  state_after (run (ev :: evs)) st = state_after (run evs) (state_after (step ev) st).
Proof. simpl. apply state_after_bind. Qed.

Lemma run_cons_effects ev evs st :
  effects_of (run (ev :: evs)) st
  = effects_of (step ev) st ++ effects_of (run evs) (state_after (step ev) st).
Proof. simpl. apply effects_of_bind. Qed.

Lemma step_ignored ev st : ignored ev = true → step ev st = (tt, st, []).
Proof.
  destruct ev as [|[D|]|c| |e|r]; simpl; try done.
  unfold onKeyDown_called. by destruct (ctrlKey e && (which e =? KEY_S)).
Qed.

Lemma step_written ev st :
  written (effects_of (step ev) st) = if starts_save ev then [assemble st] else [].
Proof.
  destruct ev as [|[D|]|c| |e|[[]|]]; simpl; try done.
  - by destruct c.
  - unfold onKeyDown_called. by destruct (ctrlKey e && (which e =? KEY_S)).
Qed.

Lemma step_gets ev st :
  List.filter is_get (effects_of (step ev) st)
  = if is_mount ev then [GetSettings] else [].
Proof.
  destruct ev as [|[D|]|c| |e|[[]|]]; simpl; try done.
  - by destruct c.
  - unfold onKeyDown_called. by destruct (ctrlKey e && (which e =? KEY_S)).
Qed.

Lemma step_alerts ev st :
  alerts (effects_of (step ev) st)
  = if is_rejected_write ev then ["Error saving file."%string] else [].
Proof.
  destruct ev as [|[D|]|c| |e|[[]|]]; simpl; try done.
  - by destruct c.
  - unfold onKeyDown_called. by destruct (ctrlKey e && (which e =? KEY_S)).
Qed.

Lemma step_documents ev st :
  stores_document ev = false →
  documents (state_after (step ev) st) = documents st.
Proof.
  destruct ev as [|[D|]|c| |e|[[]|]]; simpl; try done.
  unfold onKeyDown_called. by destruct (ctrlKey e && (which e =? KEY_S)).
Qed.

(** X1: a rejected load and a key press that is not the chord leave no
    trace: dropping these events from a run changes neither the final
    state nor the outward calls. *)
Theorem run_without_ignored_events evs st :
  run (List.filter (λ ev, negb (ignored ev)) evs) st = run evs st.
Proof.
  revert st; induction evs as [|ev evs IH]; intros st; [done|].
  simpl. destruct (ignored ev) eqn:Hev; simpl.
  - unfold bind. rewrite (step_ignored ev st Hev), IH.
    by destruct (run evs st) as [[[] st1] out1].
  - unfold bind. destruct (step ev st) as [[[] st1] out1]. by rewrite IH.
Qed.

(** X2: when the loaded document arrives, it replaces all four stored
    documents, whatever was edited while the load was pending; the flag is
    left as it was. *)
Theorem late_load_overwrites evs D st :
  state_after (run (evs ++ [GetSettingsSettled (Fulfilled D)])) st
  = mkAppState (Settings.project D) (Settings.sources D) (Settings.prep D)
      (Data.scripts (Settings.data D))
      (isFileSaved (state_after (run evs) st)).
Proof. by rewrite run_app. Qed.

(** X3: loading back the document [onSave] has written restores the four
    stored documents, from any state. *)
Theorem save_then_load_restores st st' r :
  (λ doc, state_after (loadData (Fulfilled doc)) st')
    <$> written (effects_of (onSave r) st)
  = [mkAppState (project st) (sources st) (prep st) (scripts st) false].
Proof. by rewrite onSave_written. Qed.

(** X4: once an edit has been rendered, a save from the new page, by the
    button when it is there or by the chord, writes the document with the
    edited part replaced and the other three parts as stored. *)
Theorem edit_then_save_writes_the_edit st e r :
  save_chord e →
  (∀ p,
     saves_on_page (state_after (onProjectChanged p) st) e r
     = let doc := Settings.mk p (sources st) (prep st)
                    (Data.mk (scripts st) (Data.other (Settings.data new_Settings)))
       in (if truthy p then Some [doc] else None, [doc]))
  ∧ (∀ s,
     saves_on_page (state_after (onSourcesChanged s) st) e r
     = let doc := Settings.mk (project st) s (prep st)
                    (Data.mk (scripts st) (Data.other (Settings.data new_Settings)))
       in (if truthy (project st) then Some [doc] else None, [doc]))
  ∧ (∀ p,
     saves_on_page (state_after (onPrepChanged p) st) e r
     = let doc := Settings.mk (project st) (sources st) p
                    (Data.mk (scripts st) (Data.other (Settings.data new_Settings)))
       in (if truthy (project st) then Some [doc] else None, [doc]))
  ∧ (∀ s,
     saves_on_page (state_after (onScriptsChanged s) st) e r
     = let doc := Settings.mk (project st) (sources st) (prep st)
                    (Data.mk s (Data.other (Settings.data new_Settings)))
       in (if truthy (project st) then Some [doc] else None, [doc])).
Proof.
  intros He%chord_cases.
  assert (∀ st1, saves_on_page st1 e r
                 = (if truthy (project st1) then Some [assemble st1] else None,
                    [assemble st1])) as Hpage.
  { intros st1. unfold saves_on_page, render; simpl. f_equal.
    - destruct (truthy (project st1)); [|done].
      simpl. by rewrite onSave_written.
    - unfold onKeyDown.
      by rewrite He, effects_of_bind, written_app, onSave_written. }
  repeat split; intros x; by rewrite Hpage.
Qed.

(** X5: of two edits in a row to the same document the second one stands;
    edits to different documents can be made in either order. *)
Theorem edits_commute_or_overwrite c1 c2 st :
  (onChildChanged c1 ;;; onChildChanged c2) st
  = if same_document c1 c2 then onChildChanged c2 st
    else (onChildChanged c2 ;;; onChildChanged c1) st.
Proof. by destruct c1, c2. Qed.

(** X6: over any run, the data service is asked to save once per started
    [onSave] (a click on the button or the chord) and asked for the
    settings once per mount; no other event calls it. *)
Theorem data_service_calls evs st :
  length (written (effects_of (run evs) st))
  = length (List.filter starts_save evs)
  ∧ length (List.filter is_get (effects_of (run evs) st))
    = length (List.filter is_mount evs).
Proof.
  revert st; induction evs as [|ev evs IH]; intros st; [done|].
  destruct (IH (state_after (step ev) st)) as [IHw IHg].
  rewrite run_cons_effects, written_app, List.filter_app, !length_app.
  rewrite IHw, IHg, step_written, step_gets. simpl.
  by destruct (starts_save ev), (is_mount ev).
Qed.

(** X7: over any run, [alert] is called once for every write that is
    rejected, always with the same text, and for nothing else: not for a
    rejected load, not for a fulfilled write. *)
Theorem alerts_of_a_run evs st :
  alerts (effects_of (run evs) st)
  = replicate (length (List.filter is_rejected_write evs))
      "Error saving file."%string.
Proof.
  revert st; induction evs as [|ev evs IH]; intros st; [done|].
  rewrite run_cons_effects, alerts_app, IH, step_alerts. simpl.
  by destruct (is_rejected_write ev).
Qed.

(** X8: the four stored documents change only when a child editor reports
    a change or a loaded document arrives: a run without such events
    (mounts, clicks, key presses, settled writes, rejected loads) leaves
    them as they were. *)
Theorem documents_change_only_by_edit_or_load evs st :
  Forall (λ ev, stores_document ev = false) evs →
  documents (state_after (run evs) st) = documents st.
Proof.
  intros Hevs; revert st.
  induction Hevs as [|ev evs Hev _ IH]; intros st; [done|].
  by rewrite run_cons_state, IH, step_documents.
Qed.

(** X9: the document of a save is fixed when [onSave] is called: whatever
    happens while the write is pending, edits included, the write carries
    the state of the call, and its fulfilment sets the flag all the
    same. *)
Theorem pending_save_ignores_later_events st evs :
  isFileSaved
    (state_after (onSave_called ;;; run evs ;;; onSave_resumed (Fulfilled tt)) st)
  = true
  ∧ written
      (effects_of (onSave_called ;;; run evs ;;; onSave_resumed (Fulfilled tt)) st)
    = assemble st :: written (effects_of (run evs) (state_after onSave_called st))
  ∧ documents
      (state_after (onSave_called ;;; run evs ;;; onSave_resumed (Fulfilled tt)) st)
    = documents (state_after (run evs) (state_after onSave_called st)).
Proof.
  rewrite !state_after_bind, !effects_of_bind, !written_app.
  split; [done|split; [|done]].
  simpl. by rewrite app_nil_r.
Qed.

(** X10: the flag is set after a run exactly when a write was fulfilled
    during the run and nothing reset the flag after that, or when it was
    set before the run and nothing in the run reset it. *)
Theorem flag_after_a_run evs st :
  isFileSaved (state_after (run evs) st) = true
  ↔ (∃ pre post,
       evs = pre ++ SaveSettingsSettled (Fulfilled tt) :: post
       ∧ Forall (λ ev, resets_flag ev = false) post)
    ∨ (isFileSaved st = true ∧ Forall (λ ev, resets_flag ev = false) evs).
Proof.
  revert st; induction evs as [|ev evs IH]; intros st.
  - split.
    + intros Hst. right. by split.
    + intros [(pre & post & Heq & _)|[Hst _]]; [by destruct pre|done].
  - rewrite run_cons_state, IH. split.
    + intros [(pre & post & -> & Hpost)|[Hmid Hevs]].
      * left. by exists (ev :: pre), post.
      * destruct (isFileSaved st) eqn:Hst.
        -- destruct (resets_flag ev) eqn:Hev.
           ++ by rewrite (step_resets ev st Hev) in Hmid.
           ++ right. split; [done|by constructor].
        -- left. exists [], evs.
           by rewrite (step_sets_only_on_fulfilled_write ev st Hst Hmid).
    + intros [(pre & post & Heq & Hpost)|[Hst Hevs]].
      * destruct pre as [|ev' pre]; simplify_eq/=.
        -- right. by split.
        -- left. by exists pre, post.
      * apply Forall_cons in Hevs as [Hev Hevs].
        right. split; [by apply step_keeps|done].
Qed.

(** ** What is rendered *)

(** X11: what an editor reports through its callback is what it is handed
    on the next render, the other three editors are handed what they had,
    and the banner is gone; a project that is not truthy takes the editors
    away altogether. *)
Theorem editors_are_handed_what_they_report st ed :
  content (render st) = inr ed →
  (∀ s,
     shown (render (state_after (SourcesEditor_sourcesChanged ed s) st))
     = Some (ProjectEditor_project ed, s, PrepEditor_prep ed,
             ScriptsEditor_scripts ed, false))
  ∧ (∀ p,
     shown (render (state_after (PrepEditor_prepChanged ed p) st))
     = Some (ProjectEditor_project ed, SourcesEditor_sources ed, p,
             ScriptsEditor_scripts ed, false))
  ∧ (∀ s,
     shown (render (state_after (ScriptsEditor_scriptsChanged ed s) st))
     = Some (ProjectEditor_project ed, SourcesEditor_sources ed,
             PrepEditor_prep ed, s, false))
  ∧ (∀ p,
     shown (render (state_after (ProjectEditor_projectChanged ed p) st))
     = if truthy p then
         Some (p, SourcesEditor_sources ed, PrepEditor_prep ed,
               ScriptsEditor_scripts ed, false)
       else None).
Proof.
  unfold render; simpl. destruct (truthy (project st)) eqn:Hp; [|done].
  intros [= <-]. unfold shown; simpl. rewrite Hp.
  repeat split; try done.
  intros p. by destruct (truthy p).
Qed.

(** X12: the key handler sits on the container, outside [project && ...]:
    when the stored project is not truthy nothing of the editors, the
    button or the banner is rendered, and the chord still writes the
    document assembled from the state. *)
Theorem chord_saves_without_editors st e r :
  truthy (project st) = false →
  save_chord e →
  content (render st) = inl (project st)
  ∧ shown (render st) = None
  ∧ effects_of (container_onKeyDown (render st) e r) st
    = PreventDefault :: SaveSettings (assemble st) :: notification r.
Proof.
  intros Hp He%chord_cases. unfold shown, render; simpl. rewrite Hp.
  do 2 (split; [done|]).
  unfold onKeyDown. rewrite He, effects_of_bind, onSave_effects. done.
Qed.

(** X13: when the editors are rendered, the save button and the chord do
    the same: same document written, same state afterwards; the chord
    only adds the call of [preventDefault]. *)
Theorem button_and_chord_agree st ed e r :
  content (render st) = inr ed →
  save_chord e →
  state_after (button_onClick ed r) st
  = state_after (container_onKeyDown (render st) e r) st
  ∧ effects_of (container_onKeyDown (render st) e r) st
    = PreventDefault :: effects_of (button_onClick ed r) st.
Proof.
  unfold render; simpl. destruct (truthy (project st)); [|done].
  intros [= <-] He%chord_cases; simpl.
  unfold onKeyDown. rewrite He, state_after_bind, effects_of_bind. done.
Qed.

(** X14: when the write of a save settles and no other write was fulfilled
    while it was pending, the page rendered next, if it shows the editors,
    shows the banner exactly when the settling raised no [alert]: the user
    gets the banner or the alert, never both and never neither. *)
Theorem banner_or_alert st pending r ed :
  SaveSettingsSettled (Fulfilled tt) ∉ pending →
  content
    (render
       (state_after (onSave_called ;;; run pending ;;; onSave_resumed r) st))
  = inr ed →
  (settingsSaved ed = true
   ∧ alerts
       (effects_of (onSave_resumed r)
          (state_after (onSave_called ;;; run pending) st))
     = [])
  ∨ (settingsSaved ed = false
     ∧ alerts
         (effects_of (onSave_resumed r)
            (state_after (onSave_called ;;; run pending) st))
       = ["Error saving file."%string]).
Proof.
  intros Hpending.
  pose proof (onSave_rejected_after_events st pending Hpending) as Hflag.
  rewrite !state_after_bind in *.
  set (st2 := state_after (run pending) (state_after onSave_called st)) in *.
  unfold render; simpl.
  destruct r as [[]|].
  - destruct (truthy (project (state_after (onSave_resumed (Fulfilled ())) st2)));
      [|done].
    intros [= <-]. by left.
  - destruct (truthy (project (state_after (onSave_resumed Rejected) st2)));
      [|done].
    intros [= <-]. right. by split.
Qed.

(** X18: before the settings have arrived the page already shows the
    editors and the save button, provided [new Project()] is truthy; a save
    at that point writes the initial values, with no sources and no
    scripts, whatever document the pending load delivers afterwards. *)
Theorem save_before_load_writes_initial_values r :
  truthy new_Project = true →
  (∃ ed,
     content (render initial_state) = inr ed
     ∧ written (effects_of (button_onClick ed r) initial_state)
       = [Settings.mk new_Project [] new_Prep
            (Data.mk [] (Data.other (Settings.data new_Settings)))])
  ∧ (∀ D,
       written
         (effects_of
            (run [Mounted; SaveClicked; GetSettingsSettled (Fulfilled D);
                  SaveSettingsSettled r])
            initial_state)
       = [Settings.mk new_Project [] new_Prep
            (Data.mk [] (Data.other (Settings.data new_Settings)))]).
Proof.
  intros Hp. split.
  - unfold render; simpl. rewrite Hp. eexists. split; [done|].
    by rewrite onSave_written.
  - intros D. by destruct r.
Qed.

End App.

(** ** Concrete runs *)

(** The scenario of the specification: load, edit the sources, save. *)
Example scenario_run :
  state_after
    (loadData (Fulfilled scenario_document) ;;;
     onChildChanged (SourcesChanged [sample_source]) ;;;
     onSave empty_Settings (Fulfilled tt))
    (initial_state VNull VNull)
  = mkAppState sample_project [sample_source] (VObj []) [] true
  ∧ Settings.sources
      <$> written
            (effects_of
               (loadData (Fulfilled scenario_document) ;;;
                onChildChanged (SourcesChanged [sample_source]) ;;;
                onSave empty_Settings (Fulfilled tt))
               (initial_state VNull VNull))
    = [[sample_source]].
Proof. done. Qed.

(** With a fresh document that has no field besides [scripts] in its
    [data], the [bibliography] field of the loaded document is gone from
    the document that is saved. *)
Example bibliography_not_saved :
  written
    (effects_of
       (loadData (Fulfilled document_a) ;;; onSave empty_Settings (Fulfilled tt))
       sample_state)
  = [Settings.mk sample_project [sample_source; VStr "second"] (VObj [])
       (Data.mk [sample_script] ∅)].
Proof. done. Qed.

(** A write that is fulfilled while an earlier one is pending sets the
    flag, and the rejection of the earlier one leaves it set. *)
Example overlapping_saves :
  isFileSaved
    (state_after
       (run empty_Settings
          [SaveClicked; SaveClicked;
           SaveSettingsSettled (Fulfilled tt); SaveSettingsSettled Rejected])
       sample_state)
  = true.
Proof. done. Qed.

(** Saving again after a successful save, with the second write rejected:
    the flag is set after the first save and cleared after the second. *)
Example save_again_rejected :
  isFileSaved (state_after (onSave empty_Settings (Fulfilled tt)) sample_state)
  = true
  ∧ isFileSaved
      (state_after
         (onSave empty_Settings (Fulfilled tt) ;;; onSave empty_Settings Rejected)
         sample_state)
    = false.
Proof. done. Qed.

(** Two saves in a row with both writes rejected: the same document is
    written twice and [alert] is called after each write. *)
Example two_rejected_saves :
  effects_of (onSave empty_Settings Rejected ;;; onSave empty_Settings Rejected)
    sample_state
  = [SaveSettings (assemble empty_Settings sample_state);
     Alert "Error saving file.";
     SaveSettings (assemble empty_Settings sample_state);
     Alert "Error saving file."].
Proof. done. Qed.

(** ** Counterexamples to the claims as worded *)

Lemma document_a_b_differ :
  Data.other (Settings.data document_a) !! "bibliography"%string
  = Some (VStr "a.bib")
  ∧ Data.other (Settings.data document_b) !! "bibliography"%string
    = Some (VStr "b.bib").
Proof. done. Qed.

(** C1, counterexample: whatever [new Settings()] builds, the saved
    document cannot carry both the [bibliography] of [document_a] after
    loading [document_a] and that of [document_b] after loading
    [document_b]: one of the two loses the field it was loaded with. *)
Lemma data_fields_not_retained :
  ¬ ∃ fresh,
      retains_other_data_fields fresh document_a
      ∧ retains_other_data_fields fresh document_b.
Proof.
  intros (fresh & Ha & Hb).
  destruct document_a_b_differ as [Ka Kb].
  specialize (Ha sample_state (Fulfilled tt)).
  specialize (Hb sample_state (Fulfilled tt)).
  rewrite load_then_save_written in Ha, Hb.
  specialize (Ha _ ltac:(constructor) _ _ Ka).
  specialize (Hb _ ltac:(constructor) _ _ Kb).
  simpl in Ha, Hb. congruence.
Qed.

(** C2, counterexample: whatever [new Settings()] builds, loading and
    saving at once does not hand back both [document_a] and
    [document_b]. *)
Lemma no_round_trip :
  ¬ ∃ fresh, round_trip fresh document_a ∧ round_trip fresh document_b.
Proof.
  intros (fresh & Ha & Hb).
  specialize (Ha sample_state (Fulfilled tt)).
  specialize (Hb sample_state (Fulfilled tt)).
  rewrite load_then_save_written in Ha, Hb.
  assert (Data.other (Settings.data document_a)
          = Data.other (Settings.data document_b)) as Heq
    by (unfold document_a, document_b in *; simpl in *; congruence).
  destruct document_a_b_differ as [Ka Kb].
  rewrite Heq in Ka. congruence.
Qed.

(** C3, counterexample: after a successful save, saving again with the
    write rejected leaves the flag false although no edit was made; and a
    save fulfilled while the load is pending leaves the flag true when the
    load completes. *)
Lemma flag_reset_without_edit :
  (¬ ∃ fresh, saved_until_next_edit fresh)
  ∧ (¬ ∃ fresh, false_after_load fresh).
Proof.
  split.
  - intros [fresh H].
    specialize (H sample_state [SaveClicked; SaveSettingsSettled Rejected]).
    discriminate H. by repeat constructor.
  - intros [fresh H].
    specialize (H sample_state [SaveClicked; SaveSettingsSettled (Fulfilled tt)]
                  (Fulfilled scenario_document)).
    discriminate H.
Qed.

(** C4, counterexample: a save is called while the write of an earlier one
    is pending and its write is fulfilled; when the earlier write is then
    rejected, the flag is true. *)
Lemma flag_set_after_rejected_write :
  ¬ ∃ fresh, false_after_rejected_write fresh.
Proof.
  intros [fresh H].
  specialize (H sample_state [SaveClicked; SaveSettingsSettled (Fulfilled tt)]).
  discriminate H.
Qed.

(** C8, counterexample: two saves whose writes are rejected call [alert]
    twice besides writing twice. *)
Lemma alert_besides_the_write :
  ¬ ∃ fresh, writes_only fresh.
Proof.
  intros [fresh H].
  specialize (H sample_state Rejected Rejected).
  apply Forall_cons in H as [_ H]. apply Forall_cons in H as [H _].
  discriminate H.
Qed.

(** ** The conditional claims at concrete inputs *)

(** C2 at the scenario document, whose [data] has no field besides
    [scripts], with a fresh document that has none either: it is handed
    back as loaded. *)
Lemma load_then_save_document_witness :
  Data.other (Settings.data scenario_document)
  = Data.other (Settings.data empty_Settings)
  ∧ round_trip empty_Settings scenario_document.
Proof.
  split; [reflexivity|].
  apply (proj2 (load_then_save_document empty_Settings scenario_document)).
  reflexivity.
Defined.

(** C3 on concrete events: the flag is false when a load completes after
    an edit and a rejected write; it survives a key press that is not the
    chord, the arrival of a document and the rejection of a pending write,
    also when the fulfilled write had an edit made while it was pending; an
    edit clears it; and a run that sets it holds a fulfilled write. *)
Lemma saved_flag_lifecycle_witness :
  ((SaveSettingsSettled (Fulfilled tt)
    ∉ [Edited (PrepChanged VNull); SaveSettingsSettled Rejected])
   ∧ isFileSaved
       (state_after
          (loadData_called ;;;
           run empty_Settings
             [Edited (PrepChanged VNull); SaveSettingsSettled Rejected] ;;;
           loadData_resumed (Fulfilled scenario_document))
          sample_state)
     = false)
  ∧ (Forall (λ ev, resets_flag ev = false)
       [KeyPressed plain_s; GetSettingsSettled (Fulfilled scenario_document);
        SaveSettingsSettled Rejected]
     ∧ isFileSaved
         (state_after
            (onSave empty_Settings (Fulfilled tt) ;;;
             run empty_Settings
               [KeyPressed plain_s; GetSettingsSettled (Fulfilled scenario_document);
                SaveSettingsSettled Rejected])
            sample_state)
       = true
     ∧ isFileSaved
         (state_after
            (onSave_called empty_Settings ;;;
             run empty_Settings [Edited (PrepChanged VNull)] ;;;
             onSave_resumed (Fulfilled tt) ;;;
             run empty_Settings
               [KeyPressed plain_s; GetSettingsSettled (Fulfilled scenario_document);
                SaveSettingsSettled Rejected])
            sample_state)
       = true)
  ∧ (resets_flag (Edited (PrepChanged VNull)) = true
     ∧ isFileSaved
         (state_after (step empty_Settings (Edited (PrepChanged VNull)))
            (state_after (onSave empty_Settings (Fulfilled tt)) sample_state))
       = false)
  ∧ (isFileSaved sample_state = false
     ∧ isFileSaved
         (state_after
            (run empty_Settings [SaveClicked; SaveSettingsSettled (Fulfilled tt)])
            sample_state)
       = true
     ∧ SaveSettingsSettled (Fulfilled tt)
       ∈ [SaveClicked; SaveSettingsSettled (Fulfilled tt)]).
Proof.
  destruct (saved_flag_lifecycle empty_Settings)
    as (_ & _ & H3 & _ & _ & H6 & H7 & H8 & H9).
  assert (SaveSettingsSettled (Fulfilled tt)
          ∉ [Edited (PrepChanged VNull); SaveSettingsSettled Rejected]) as Hpending.
  { intros Hin.
    repeat (apply elem_of_cons in Hin as [Hin|Hin]; [discriminate Hin|]).
    by apply elem_of_nil in Hin. }
  assert (Forall (λ ev, resets_flag ev = false)
            [KeyPressed plain_s; GetSettingsSettled (Fulfilled scenario_document);
             SaveSettingsSettled Rejected]) as Hevs
    by (repeat constructor).
  split; [split|split; [split; [|split]|split; [split|split; [|split]]]].
  - exact Hpending.
  - exact (H3 sample_state _ (Fulfilled scenario_document) Hpending).
  - exact Hevs.
  - exact (H6 sample_state _ Hevs).
  - exact (H7 sample_state [Edited (PrepChanged VNull)] _ Hevs).
  - reflexivity.
  - exact (H8 _ (Edited (PrepChanged VNull)) eq_refl).
  - reflexivity.
  - reflexivity.
  - exact (H9 sample_state [SaveClicked; SaveSettingsSettled (Fulfilled tt)]
             eq_refl eq_refl).
Defined.

(** C4 with an edit and a key press that is not the chord while the write
    is pending. *)
Lemma onSave_rejected_witness :
  (SaveSettingsSettled (Fulfilled tt)
   ∉ [Edited (SourcesChanged []); KeyPressed plain_s])
  ∧ isFileSaved
      (state_after
         (onSave_called empty_Settings ;;;
          run empty_Settings [Edited (SourcesChanged []); KeyPressed plain_s] ;;;
          onSave_resumed Rejected)
         sample_state)
    = false.
Proof.
  assert (SaveSettingsSettled (Fulfilled tt)
          ∉ [Edited (SourcesChanged []); KeyPressed plain_s]) as Hpending.
  { intros Hin.
    repeat (apply elem_of_cons in Hin as [Hin|Hin]; [discriminate Hin|]).
    by apply elem_of_nil in Hin. }
  split; [exact Hpending|].
  destruct (onSave_rejected empty_Settings sample_state)
    as (_ & _ & _ & _ & H5 & _).
  exact (H5 _ Hpending).
Defined.

(** C5 on control+S and on control+A. *)
Lemma onKeyDown_is_onSave_on_chord_witness :
  (save_chord ctrl_s
   ∧ state_after (onKeyDown empty_Settings ctrl_s Rejected) sample_state
     = state_after (onSave empty_Settings Rejected) sample_state
   ∧ effects_of (onKeyDown empty_Settings ctrl_s Rejected) sample_state
     = PreventDefault :: effects_of (onSave empty_Settings Rejected) sample_state)
  ∧ (¬ save_chord ctrl_a
     ∧ onKeyDown empty_Settings ctrl_a Rejected sample_state
       = (tt, sample_state, [])).
Proof.
  assert (save_chord ctrl_s) as Hs by (split; reflexivity).
  assert (¬ save_chord ctrl_a) as Ha by (intros [_ H]; vm_compute in H; discriminate H).
  split; split.
  - exact Hs.
  - exact (proj1 (onKeyDown_is_onSave_on_chord empty_Settings ctrl_s Rejected
                    sample_state) Hs).
  - exact Ha.
  - exact (proj2 (onKeyDown_is_onSave_on_chord empty_Settings ctrl_a Rejected
                    sample_state) Ha).
Defined.

(** C10 on control+shift+S: the default is suppressed, so the event is the
    chord; and the same through the event loop. *)
Lemma onKeyDown_chord_ignores_other_modifiers_witness :
  (PreventDefault
   ∈ effects_of (onKeyDown empty_Settings ctrl_shift_s (Fulfilled tt)) sample_state
   ∧ save_chord ctrl_shift_s)
  ∧ (PreventDefault
     ∈ effects_of (step empty_Settings (KeyPressed ctrl_shift_s)) sample_state
     ∧ ∃ e, KeyPressed ctrl_shift_s = KeyPressed e ∧ save_chord e).
Proof.
  destruct (onKeyDown_chord_ignores_other_modifiers empty_Settings)
    as (_ & H2 & H3).
  assert (PreventDefault
          ∈ effects_of (onKeyDown empty_Settings ctrl_shift_s (Fulfilled tt))
              sample_state) as Hin1 by (vm_compute; constructor).
  assert (PreventDefault
          ∈ effects_of (step empty_Settings (KeyPressed ctrl_shift_s))
              sample_state) as Hin2 by (vm_compute; constructor).
  split; split.
  - exact Hin1.
  - exact (H2 _ _ _ Hin1).
  - exact Hin2.
  - exact (H3 _ _ Hin2).
Defined.


(** ** The tooltip pass *)

Lemma hasAttribute_setAttribute name val el :
  hasAttribute name (setAttribute name val el) = true.
Proof.
  unfold hasAttribute, setAttribute; simpl.
  apply bool_decide_eq_true. rewrite lookup_insert_eq. by eexists.
Qed.

Lemma after_pass_done new_Tooltip el :
  needs_tooltip (after_pass new_Tooltip el) = false.
Proof.
  unfold after_pass. destruct (needs_tooltip el) eqn:Hel; [|done].
  unfold needs_tooltip. rewrite hasAttribute_setAttribute.
  apply andb_false_r.
Qed.

Lemma after_pass_fixed new_Tooltip el :
  needs_tooltip el = false → after_pass new_Tooltip el = el.
Proof. unfold after_pass. by intros ->. Qed.

(** The loop of [initTooltips], started in the middle of the document. *)
Lemma initTooltips_loop new_Tooltip done_part rest created :
  foldl (initTooltips_node new_Tooltip) (done_part ++ rest, created)
    (querySelectorAll_from is_tooltip_toggle (length done_part) rest)
  = (done_part ++ (after_pass new_Tooltip <$> rest),
     created ++ querySelectorAll_from needs_tooltip (length done_part) rest).
Proof.
  revert done_part created.
  induction rest as [|el rest IH]; intros done_part created; simpl.
  { by rewrite !app_nil_r. }
  assert (S (length done_part) = length (done_part ++ [el])) as Hlen_same
    by (rewrite length_app; simpl; lia).
  unfold after_pass, needs_tooltip.
  destruct (is_tooltip_toggle el) eqn:Hsel; simpl.
  - unfold initTooltips_node at 2; simpl.
    rewrite list_lookup_middle by done.
    destruct (hasAttribute "data-tooltip-initialized" el) eqn:Hmark; simpl.
    + rewrite (cons_middle el done_part rest), app_assoc, Hlen_same, IH.
      by rewrite <- app_assoc.
    + rewrite insert_app_r_alt by done.
      rewrite Nat.sub_diag; simpl.
      set (el' := setAttribute _ _ _).
      assert (S (length done_part) = length (done_part ++ [el'])) as Hlen
        by (rewrite length_app; simpl; lia).
      rewrite (cons_middle el' done_part rest), app_assoc, Hlen, IH.
      by rewrite <- !app_assoc.
  - rewrite (cons_middle el done_part rest), app_assoc, Hlen_same, IH.
    by rewrite <- app_assoc.
Qed.

(** One pass, node by node. *)
Lemma initTooltips_nodewise new_Tooltip doc :
  initTooltips new_Tooltip doc
  = (after_pass new_Tooltip <$> doc, querySelectorAll needs_tooltip doc).
Proof. apply (initTooltips_loop new_Tooltip [] doc []). Qed.

Lemma querySelectorAll_from_none selector i doc :
  Forall (λ el, selector el = false) doc →
  querySelectorAll_from selector i doc = [].
Proof.
  intros Hdoc; revert i.
  induction Hdoc as [|el doc Hel _ IH]; intros i; simpl; [done|].
  by rewrite Hel.
Qed.

Lemma querySelectorAll_from_elem selector n doc i :
  i ∈ querySelectorAll_from selector n doc
  ↔ ∃ el, (n ≤ i)%nat ∧ doc !! (i - n)%nat = Some el ∧ selector el = true.
Proof.
  revert n; induction doc as [|el doc IH]; intros n; simpl.
  - rewrite elem_of_nil. split; [done|].
    intros (el & _ & Hlook & _). by rewrite lookup_nil in Hlook.
  - assert (i ∈ querySelectorAll_from selector (S n) doc
            ↔ ∃ el', (S n ≤ i)%nat ∧ (el :: doc) !! (i - n)%nat = Some el'
                     ∧ selector el' = true) as Hrest.
    { rewrite IH. split; intros (el' & Hle & Hlook & Hsel); exists el';
        (split; [done|split; [|done]]).
      - by replace (i - n)%nat with (S (i - S n)) by lia.
      - by replace (i - n)%nat with (S (i - S n)) in Hlook by lia. }
    destruct (selector el) eqn:Hel.
    + rewrite elem_of_cons, Hrest. split.
      * intros [->|(el' & Hle & Hlook & Hsel)].
        -- exists el. rewrite Nat.sub_diag. done.
        -- exists el'. split; [lia|done].
      * intros (el' & Hle & Hlook & Hsel).
        destruct (decide (i = n)) as [->|Hne]; [by left|right].
        exists el'. split; [lia|done].
    + rewrite Hrest. split.
      * intros (el' & Hle & Hlook & Hsel). exists el'. split; [lia|done].
      * intros (el' & Hle & Hlook & Hsel).
        destruct (decide (i = n)) as [->|Hne].
        -- rewrite Nat.sub_diag in Hlook. simplify_eq/=. congruence.
        -- exists el'. split; [lia|done].
Qed.

Lemma querySelectorAll_from_NoDup selector n doc :
  NoDup (querySelectorAll_from selector n doc).
Proof.
  revert n; induction doc as [|el doc IH]; intros n; simpl.
  - constructor.
  - destruct (selector el); [|done].
    constructor; [|done].
    rewrite querySelectorAll_from_elem. intros (el' & Hle & _). lia.
Qed.

(** X15: a second pass of [initTooltips] constructs no tooltip and leaves
    the document as the first pass left it, whatever the constructor does
    to the nodes it is given. *)
Theorem initTooltips_twice new_Tooltip doc :
  initTooltips new_Tooltip (initTooltips new_Tooltip doc).1
  = ((initTooltips new_Tooltip doc).1, []).
Proof.
  rewrite !initTooltips_nodewise; simpl. f_equal.
  - rewrite <- list_fmap_compose. apply list_fmap_ext.
    intros i el _. simpl. apply after_pass_fixed, after_pass_done.
  - apply querySelectorAll_from_none, Forall_fmap, Forall_true.
    intros el. apply after_pass_done.
Qed.

(** X16: a pass constructs a tooltip for exactly the nodes that match the
    selector and do not yet carry the marker attribute, each of them
    once. *)
Theorem initTooltips_constructs new_Tooltip doc :
  NoDup (initTooltips new_Tooltip doc).2
  ∧ ∀ i,
      i ∈ (initTooltips new_Tooltip doc).2
      ↔ ∃ el, doc !! i = Some el
              ∧ is_tooltip_toggle el = true
              ∧ hasAttribute "data-tooltip-initialized" el = false.
Proof.
  rewrite initTooltips_nodewise; simpl. split.
  - apply querySelectorAll_from_NoDup.
  - intros i. unfold querySelectorAll.
    rewrite querySelectorAll_from_elem, Nat.sub_0_r.
    unfold needs_tooltip.
    split; intros (el & H); exists el.
    + destruct H as (_ & Hlook & [Hsel Hmark%negb_true_iff]%andb_true_iff). done.
    + destruct H as (Hlook & Hsel & Hmark).
      split; [lia|split; [done|]]. by rewrite Hsel, Hmark.
Qed.

(** X17: after a pass every node that matches the selector carries the
    marker; a node that does not match, or that already carried the marker
    with whatever value, is left exactly as it was; and no node is added or
    removed. *)
Theorem initTooltips_marks new_Tooltip doc i el :
  doc !! i = Some el →
  length (initTooltips new_Tooltip doc).1 = length doc
  ∧ (is_tooltip_toggle el = true →
     ∃ el', (initTooltips new_Tooltip doc).1 !! i = Some el'
            ∧ hasAttribute "data-tooltip-initialized" el' = true)
  ∧ (is_tooltip_toggle el = false
     ∨ hasAttribute "data-tooltip-initialized" el = true →
     (initTooltips new_Tooltip doc).1 !! i = Some el).
Proof.
  intros Hlook. rewrite initTooltips_nodewise; simpl.
  rewrite length_fmap, list_lookup_fmap, Hlook; simpl.
  split; [done|]. unfold after_pass, needs_tooltip. split.
  - intros ->; simpl.
    destruct (hasAttribute "data-tooltip-initialized" el) eqn:Hmark; simpl.
    + by exists el.
    + eexists. split; [done|]. apply hasAttribute_setAttribute.
  - intros [->| ->]; [done|]. by rewrite andb_false_r.
Qed.

(** ** The conditional properties at concrete inputs *)

(** X8 on a mount, a click, a key press and the settling of a write and of
    a load that failed. *)
Lemma documents_change_only_by_edit_or_load_witness :
  Forall (λ ev, stores_document ev = false)
    [Mounted; SaveClicked; KeyPressed ctrl_s; SaveSettingsSettled (Fulfilled tt);
     GetSettingsSettled Rejected]
  ∧ documents
      (state_after
         (run empty_Settings
            [Mounted; SaveClicked; KeyPressed ctrl_s;
             SaveSettingsSettled (Fulfilled tt); GetSettingsSettled Rejected])
         sample_state)
    = documents sample_state.
Proof.
  assert (Forall (λ ev, stores_document ev = false)
            [Mounted; SaveClicked; KeyPressed ctrl_s;
             SaveSettingsSettled (Fulfilled tt); GetSettingsSettled Rejected])
    as Hevs by (repeat constructor).
  split; [exact Hevs|].
  exact (documents_change_only_by_edit_or_load empty_Settings _ sample_state Hevs).
Defined.

(** X11 on the sample state: the sources editor reports an empty list. *)
Lemma editors_are_handed_what_they_report_witness :
  content (render empty_Settings sample_state)
  = inr (mkEditors sample_project onProjectChanged
           [sample_source] onSourcesChanged
           (VObj []) onPrepChanged
           [sample_script] onScriptsChanged
           (onSave empty_Settings) false)
  ∧ shown (render empty_Settings (state_after (onSourcesChanged []) sample_state))
    = Some (sample_project, [], VObj [], [sample_script], false).
Proof.
  split; [reflexivity|].
  exact (proj1 (editors_are_handed_what_they_report empty_Settings sample_state
                  _ eq_refl) []).
Defined.

(** X12 on a state whose project is [null]. *)
Lemma chord_saves_without_editors_witness :
  truthy (project (mkAppState VNull [sample_source] (VObj []) [] false)) = false
  ∧ save_chord ctrl_s
  ∧ shown (render empty_Settings (mkAppState VNull [sample_source] (VObj []) [] false))
    = None
  ∧ effects_of
      (container_onKeyDown
         (render empty_Settings (mkAppState VNull [sample_source] (VObj []) [] false))
         ctrl_s (Fulfilled tt))
      (mkAppState VNull [sample_source] (VObj []) [] false)
    = [PreventDefault;
       SaveSettings (Settings.mk VNull [sample_source] (VObj []) (Data.mk [] ∅))].
Proof.
  assert (save_chord ctrl_s) as Hs by (split; reflexivity).
  split; [reflexivity|split; [exact Hs|]].
  destruct (chord_saves_without_editors empty_Settings
              (mkAppState VNull [sample_source] (VObj []) [] false)
              ctrl_s (Fulfilled tt) eq_refl Hs) as (_ & Hshown & Heff).
  split; [exact Hshown|exact Heff].
Defined.

(** X13 on the sample state and control+shift+S. *)
Lemma button_and_chord_agree_witness :
  save_chord ctrl_shift_s
  ∧ state_after (onSave empty_Settings Rejected) sample_state
    = state_after
        (container_onKeyDown (render empty_Settings sample_state)
           ctrl_shift_s Rejected)
        sample_state.
Proof.
  assert (save_chord ctrl_shift_s) as Hs by (split; reflexivity).
  split; [exact Hs|].
  exact (proj1 (button_and_chord_agree empty_Settings sample_state _
                  ctrl_shift_s Rejected eq_refl Hs)).
Defined.

(** X14 on the sample state, with an edit while the write is pending and
    the write rejected: no banner, one alert. *)
Lemma banner_or_alert_witness :
  (SaveSettingsSettled (Fulfilled tt) ∉ [Edited (SourcesChanged [])])
  ∧ shown
      (render empty_Settings
         (state_after
            (onSave_called empty_Settings ;;;
             run empty_Settings [Edited (SourcesChanged [])] ;;;
             onSave_resumed Rejected)
            sample_state))
    = Some (sample_project, [], VObj [], [sample_script], false)
  ∧ alerts
      (effects_of (onSave_resumed Rejected)
         (state_after
            (onSave_called empty_Settings ;;;
             run empty_Settings [Edited (SourcesChanged [])])
            sample_state))
    = ["Error saving file."%string].
Proof.
  assert (SaveSettingsSettled (Fulfilled tt) ∉ [Edited (SourcesChanged [])])
    as Hpending.
  { intros Hin.
    repeat (apply elem_of_cons in Hin as [Hin|Hin]; [discriminate Hin|]).
    by apply elem_of_nil in Hin. }
  split; [exact Hpending|split; [reflexivity|]].
  destruct (banner_or_alert empty_Settings sample_state
              [Edited (SourcesChanged [])] Rejected _ Hpending eq_refl)
    as [[Hb _]|[_ Ha]]; [discriminate Hb|exact Ha].
Defined.

(** X4 on the sample state: the sources editor reports an empty list, the
    page is rendered, and control+S or the button saves. *)
Lemma edit_then_save_writes_the_edit_witness :
  save_chord ctrl_s
  ∧ saves_on_page empty_Settings
      (state_after (onSourcesChanged []) sample_state) ctrl_s (Fulfilled tt)
    = (Some [Settings.mk sample_project [] (VObj []) (Data.mk [sample_script] ∅)],
       [Settings.mk sample_project [] (VObj []) (Data.mk [sample_script] ∅)]).
Proof.
  assert (save_chord ctrl_s) as Hs by (split; reflexivity).
  split; [exact Hs|].
  exact (proj1 (proj2 (edit_then_save_writes_the_edit empty_Settings sample_state
                         ctrl_s (Fulfilled tt) Hs)) []).
Defined.

(** X17 on the sample page: the fresh toggle gets the marker, the toggle
    marked [false] stays as it is. *)
Lemma initTooltips_marks_witness :
  (∃ el', (initTooltips sample_Tooltip sample_page).1 !! 0%nat = Some el'
          ∧ hasAttribute "data-tooltip-initialized" el' = true)
  ∧ (initTooltips sample_Tooltip sample_page).1 !! 2%nat = sample_page !! 2%nat.
Proof.
  split.
  - exact (proj1 (proj2 (initTooltips_marks sample_Tooltip sample_page 0 _ eq_refl))
             eq_refl).
  - exact (proj2 (proj2 (initTooltips_marks sample_Tooltip sample_page 2 _ eq_refl))
             (or_intror eq_refl)).
Defined.

(** X18 with objects for [new Project()] and [new Prep()]. *)
Lemma save_before_load_writes_initial_values_witness :
  truthy (VObj []) = true
  ∧ written
      (effects_of
         (run empty_Settings
            [Mounted; SaveClicked; GetSettingsSettled (Fulfilled document_a);
             SaveSettingsSettled (Fulfilled tt)])
         (initial_state (VObj []) (VObj [])))
    = [Settings.mk (VObj []) [] (VObj []) (Data.mk [] ∅)].
Proof.
  split; [reflexivity|].
  exact (proj2 (save_before_load_writes_initial_values empty_Settings
                  (VObj []) (VObj []) (Fulfilled tt) eq_refl) document_a).
Defined.
